(** * fifth: a cellular automaton machine (CAM) on bit planes

    Shallow embedding of [src/plane.py], [src/configuration.py] and
    [src/ruleset.py], and the properties of the specification checked
    against them.

    Conventions of the embedding:
    - a Python [int] is a [Z]; a tuple or list of ints is a [list Z];
    - a call that may raise returns a [result]; the exception classes are
      the builtin ones the code can reach;
    - a dictionary is a [gmap]; the keys of the offset dictionaries are
      tuples of ints, that is [list Z];
    - the plane's storage, which [Ruleset.apply_to] reads and finally
      overwrites, is an explicit store threaded through a state and
      exception monad. *)

From stdpp Require Import base list strings pretty gmap.
From Stdlib Require Import ZArith QArith Lia Ascii.

Local Open Scope Z_scope.

(** ** Exceptions and fallible results *)

Inductive exn : Type :=
  | NameError (name : string)
  | IndexError
  | ValueError
  | TypeError
  | AttributeError
  | ZeroDivisionError.

Inductive result (A : Type) : Type :=
  | Ok (a : A)
  | Raise (e : exn).

Arguments Ok {A} a.
Arguments Raise {A} e.

Definition rbind {A B : Type} (r : result A) (k : A -> result B) : result B :=
  match r with
  | Ok a => k a
  | Raise e => Raise e
  end.

Declare Scope result_scope.
Delimit Scope result_scope with result.
Notation "'let?' x ':=' r 'in' k" := (rbind r (fun x => k))
  (at level 10, x pattern, r at level 100, k at level 200) : result_scope.
Local Open Scope result_scope.

(** Indexing a sequence of length [n] with a Python int: an index in
    [0, n) is used as it is, one in [-n, 0) counts from the end, anything
    else raises [IndexError]. *)
Definition py_index (n idx : Z) : result Z :=
  if (0 <=? idx) && (idx <? n) then Ok idx
  else if (- n <=? idx) && (idx <? 0) then Ok (idx + n)
  else Raise IndexError.

(** [seq[idx]] for a Python list held as a Rocq list. *)
Definition py_getitem {A : Type} (l : list A) (idx : Z) : result A :=
  let? i := py_index (Z.of_nat (length l)) idx in
  match l !! Z.to_nat i with
  | Some a => Ok a
  | None => Raise IndexError
  end.

(** [len(range(0, n))] many indices, as [enumerate] and [range] yield
    them. *)
Definition py_range (n : Z) : list nat := seq 0 (Z.to_nat n).

(** What one entry of the flat object array holds: the number a fresh
    plane starts with, or the [bitarray] that [Ruleset.apply_to] stores. *)
Inductive rowval : Type :=
  | RInt (w : Z)
  | RBits (bits : list bool).

(** [np.prod] of a tuple of ints. *)
Definition np_prod (dims : list Z) : Z := foldr Z.mul 1 dims.

(** ** plane.py *)

Module Plane.

(** [self.grid]: [None] for the empty shape, a single number for a 1-D
    plane, otherwise a flat object array of row numbers. *)
Inductive storage : Type :=
  | GNone
  | GWord (w : rowval)
  | GRows (rows : list rowval).

Record t : Type := mk { shape : list Z; grid : storage }.

(** [np.zeros((n,), dtype=np.object)]: numpy refuses a negative length. *)
Definition np_zeros (n : Z) : result (list rowval) :=
  if n <? 0 then Raise ValueError else Ok (replicate (Z.to_nat n) (RInt 0)).

(** [Plane.__init__(self, shape)]. *)
Definition __init__ (shape : list Z) : result t :=
  match shape with
  | [] => Ok (mk shape GNone)
  | [_] => Ok (mk shape (GWord (RInt 0)))
  | _ =>
      let? rows := np_zeros (np_prod (removelast shape)) in
      Ok (mk shape (GRows rows))
  end.

(** Modelled from the spec: [bitmanip.bits_of], imported as [bm], is not
    among the sources. It expands a row number into the sequence of its
    [n] bits; following the module docstring of [plane.py] ("a 1 at index
    i corresponds to an on state at the ith index of the row"), entry [i]
    is bit [i] of the number. It is arithmetic on a number: handed a
    [bitarray] it is taken to raise [TypeError]. *)
Definition bits_of (w : rowval) (n : Z) : result (list Z) :=
  match w with
  | RInt w => Ok ((fun i => Z.b2z (Z.testbit w (Z.of_nat i))) <$> py_range n)
  | RBits _ => Raise TypeError
  end.

(** What [__getitem__] returns: an actual 0 or 1, or a plane. *)
Inductive item : Type :=
  | Bit (b : Z)
  | Sub (p : t).

(** [np.reshape(self.grid, dims)]: the sizes must agree. The [-1]
    placeholder of numpy is not a dimension a plane is built with and is
    left out. *)
Definition np_reshape (g : storage) (dims : list Z) : result (list rowval) :=
  match g with
  | GRows rows =>
      if forallb (Z.leb 0) dims && (np_prod dims =? Z.of_nat (length rows))
      then Ok rows else Raise ValueError
  | GWord w =>
      if forallb (Z.leb 0) dims && (np_prod dims =? 1)
      then Ok [w] else Raise ValueError
  | GNone => Raise ValueError
  end.

(** [Plane.__getitem__(self, idx)] for a number [idx] (the branches of
    lines 62-83). Only the 1-D branch reads bits; the other one indexes
    the first axis of the reshaped array with numpy's rules. *)
Definition getitem_int (p : t) (idx : Z) : result item :=
  match shape p with
  | [n] =>
      match grid p with
      | GWord w =>
          let? bits := bits_of w n in
          let? b := py_getitem bits idx in
          Ok (Bit b)
      | _ => Raise TypeError
      end
  | [] => Raise IndexError
  | n :: rest =>
      let lead := removelast (shape p) in
      let? rows := np_reshape (grid p) lead in
      let? i := py_index n idx in
      match tl lead with
      | [] =>
          (* a number has no [shape]: the [except AttributeError] branch *)
          let? w := py_getitem rows i in
          Ok (Sub (mk (drop (length (shape p) - 1) (shape p)) (GWord w)))
      | inner =>
          let m := Z.to_nat (np_prod inner) in
          let tmp := take m (drop (Z.to_nat i * m) rows) in
          let? _ := __init__ rest in
          Ok (Sub (mk rest (GRows tmp)))
      end
  end.

(** [Plane.__getitem__(self, idx)] for a tuple [idx] (lines 55-59): the
    coordinates are applied one after the other; a bit is a Python int
    and cannot be indexed further. *)
Definition getitem_step (tmp : result item) (i : Z) : result item :=
  let? it := tmp in
  match it with
  | Sub q => getitem_int q i
  | Bit _ => Raise TypeError
  end.

Definition __getitem__ (p : t) (idx : list Z) : result item :=
  fold_left getitem_step idx (Ok (Sub p)).



End Plane.

(** ** configuration.py *)

Module Configuration.

(** [vfunc] and a callable [next_state] receive the same arguments:
    the flat index, the flat grid, the wrapped indices, the expected
    states and the extra arguments [*args] (of type [A]). *)
Definition callee (A R : Type) : Type :=
  Z -> list Z -> list Z -> list Z -> A -> result R.

(** [next_state]: [0], [1] or a function that returns 0 or 1. *)
Inductive next_state_t (A : Type) : Type :=
  | Constant (v : Z)
  | Callable (f : callee A Z).

Arguments Constant {A} v.
Arguments Callable {A} f.

(** The attributes [__init__] assigns. [util.flatten], which computes the
    entries of [offsets], is not among the sources: [passes] adds them to
    a flat index (numbers), [Ruleset.apply_to] unpacks each into a pair;
    the entry type is the parameter [O]. *)
Record t (A O : Type) : Type := mk {
  next_state : next_state_t A;
  states : list Z;
  offsets : list O
}.

Arguments mk {A O} next_state states offsets.
Arguments next_state {A O} _.
Arguments states {A O} _.
Arguments offsets {A O} _.

(** [a % n] on numpy integers: the sign follows the divisor, and a zero
    divisor gives 0 with a warning. *)
Definition np_mod (a n : Z) : Z := if n =? 0 then 0 else a mod n.

(** The calls [passes] makes, in order, each with the indices handed
    over. *)
Inductive call : Type :=
  | CallVfunc (indices : list Z)
  | CallNextState (indices : list Z).

(** [Configuration.passes(self, f_index, grid, vfunc, *args)]. [grid] is
    the flat array; the result comes with the calls made. *)
Definition passes {A : Type} (self : t A Z) (f_index : Z) (grid : list Z)
    (vfunc : callee A bool) (args : A) : list call * result (bool * Z) :=
  let indices :=
    (fun o => np_mod (f_index + o) (Z.of_nat (length grid))) <$> offsets self in
  match vfunc f_index grid indices (states self) args with
  | Raise e => ([CallVfunc indices], Raise e)
  | Ok success =>
      match next_state self with
      | Callable f =>
          ([CallVfunc indices; CallNextState indices],
           let? state := f f_index grid indices (states self) args in
           Ok (success, state))
      | Constant v => ([CallVfunc indices], Ok (success, v))
      end
  end.






End Configuration.

(** ** ruleset.py *)

Module Ruleset.

Inductive Method : Type := MATCH | TOLERATE | SATISFY | ALWAYS_PASS.

(** One extra positional argument of [apply_to]: the tolerance, a number
    (floats are idealised as rationals), or the custom function of the
    SATISFY method. *)
Inductive arg : Type :=
  | ArgNum (q : Q)
  | ArgFn (f : Z -> list Z -> list Z -> list Z -> result bool).

(** [self.N], the width of a row, is read by [apply_to] and assigned
    nowhere in the sources: it is a field here. *)
Record t : Type := mk {
  method : Method;
  configurations : list (Configuration.t (list arg) (Z * Z));
  N : Z
}.

Fixpoint rmapM {A B : Type} (f : A -> result B) (l : list A) : result (list B) :=
  match l with
  | [] => Ok []
  | a :: l => let? b := f a in let? bs := rmapM f l in Ok (b :: bs)
  end.

Fixpoint rfoldl {S X : Type} (f : S -> X -> result S) (l : list X) (s : S) : result S :=
  match l with
  | [] => Ok s
  | x :: l => let? s' := f s x in rfoldl f l s'
  end.

(** [f_grid[indices]]: numpy picks one entry per index. *)
Definition np_take (f_grid indices : list Z) : result (list Z) :=
  rmapM (py_getitem f_grid) indices.

(** [a ^ b] on two 1-D arrays, with numpy's broadcasting. *)
Definition np_xor (a b : list Z) : result (list Z) :=
  if (length a =? length b)%nat then Ok (zip_with Z.lxor a b)
  else match a, b with
       | [x], _ => Ok (Z.lxor x <$> b)
       | _, [y] => Ok ((fun x => Z.lxor x y) <$> a)
       | _, _ => Raise ValueError
       end.

Definition np_count_nonzero (a : list Z) : Z :=
  Z.of_nat (length (filter (fun x => x ≠ 0) a)).

(** [Ruleset._matches(self, f_index, f_grid, indices, states)]. *)
Definition _matches (f_index : Z) (f_grid indices states : list Z) : result bool :=
  let? picked := np_take f_grid indices in
  let? diff := np_xor picked states in
  Ok (np_count_nonzero diff =? 0).

(** [Ruleset._tolerates(self, f_index, f_grid, indices, states, tolerance)].
    [/] is true division and raises on a zero divisor; a number cannot be
    compared with a function. *)
Definition _tolerates (f_index : Z) (f_grid indices states : list Z)
    (tolerance : arg) : result bool :=
  let? picked := np_take f_grid indices in
  let? diff := np_xor picked states in
  let non_matches := np_count_nonzero diff in
  match f_grid with
  | [] => Raise ZeroDivisionError
  | _ =>
      match tolerance with
      | ArgNum tolerance =>
          Ok (Qle_bool tolerance
                (Qmake non_matches (Pos.of_nat (length f_grid))))
      | ArgFn _ => Raise TypeError
      end
  end.

(** [Ruleset._satisfies(self, f_index, f_grid, indices, states, valid_func)]. *)
Definition _satisfies (f_index : Z) (f_grid indices states : list Z)
    (valid_func : arg) : result bool :=
  match valid_func with
  | ArgFn valid_func => valid_func f_index f_grid indices states
  | ArgNum _ => Raise TypeError
  end.

(** The choice of [vfunc] (lines 69-76), with Python's binding of the
    unpacked [args] to the parameters of the chosen method. *)
Definition vfunc_of (m : Method) : Configuration.callee (list arg) bool :=
  fun f_index f_grid indices states args =>
    match m, args with
    | MATCH, [] => _matches f_index f_grid indices states
    | TOLERATE, [tolerance] => _tolerates f_index f_grid indices states tolerance
    | SATISFY, [valid_func] => _satisfies f_index f_grid indices states valid_func
    | ALWAYS_PASS, _ => Ok true
    | _, _ => Raise TypeError
    end.

(** *** Strings: [str], slices and [int] *)

Definition bit_char (b : bool) : ascii := if b then "1"%char else "0"%char.

(** [str(row)]: the decimal numeral of a number, the [repr] of a
    [bitarray]. *)
Definition str (r : rowval) : list ascii :=
  match r with
  | RInt w => String.list_ascii_of_string (pretty w)
  | RBits bits =>
      String.list_ascii_of_string "bitarray('" ++ (bit_char <$> bits)
        ++ String.list_ascii_of_string "')"
  end.

(** A slice bound, clamped to the sequence as Python does. *)
Definition clamp (len k : Z) : nat :=
  Z.to_nat (if k <? 0 then Z.max (k + len) 0 else Z.min k len).

(** [s[k:]] and [s[:k]]. *)
Definition slice_from {A : Type} (s : list A) (k : Z) : list A :=
  drop (clamp (Z.of_nat (length s)) k) s.
Definition slice_to {A : Type} (s : list A) (k : Z) : list A :=
  take (clamp (Z.of_nat (length s)) k) s.

Definition digit_of (c : ascii) : option Z :=
  let n := Z.of_nat (Ascii.nat_of_ascii c) in
  if (48 <=? n) && (n <=? 57) then Some (n - 48) else None.

Fixpoint int_digits (cs : list ascii) (acc : Z) : result Z :=
  match cs with
  | [] => Ok acc
  | c :: cs =>
      match digit_of c with
      | Some d => int_digits cs (10 * acc + d)
      | None => Raise ValueError
      end
  end.

(** [int(s)] on a string: an optional sign and at least one decimal
    digit. (Surrounding blanks and underscores, which [int] also takes,
    do not occur in [str] of a number or of a bitarray.) *)
Definition py_int (s : list ascii) : result Z :=
  match s with
  | [] => Raise ValueError
  | c :: ds =>
      if Ascii.eqb c "-" then
        match ds with [] => Raise ValueError | _ => let? n := int_digits ds 0 in Ok (- n) end
      else if Ascii.eqb c "+" then
        match ds with [] => Raise ValueError | _ => int_digits ds 0 end
      else int_digits s 0
  end.

(** [range(0, n, 9)]. *)
Definition range9 (n : nat) : list Z :=
  (fun k => 9 * Z.of_nat k) <$> seq 0 (Nat.div (n + 8) 9).

(** *** The plane's storage as a store

    [apply_to] reads [plane.grid] while it computes and writes it at the
    end. A computation takes the storage and returns the storage it
    leaves, also when it raises. *)

Definition M (A : Type) : Type := Plane.storage -> Plane.storage * result A.

Definition mret {A : Type} (a : A) : M A := fun g => (g, Ok a).

Definition mbind {A B : Type} (m : M A) (k : A -> M B) : M B :=
  fun g =>
    match m g with
    | (g', Ok a) => k a g'
    | (g', Raise e) => (g', Raise e)
    end.

Definition lift {A : Type} (r : result A) : M A := fun g => (g, r).

Notation "'let!' x ':=' m 'in' k" := (mbind m (fun x => k))
  (at level 10, x pattern, m at level 100, k at level 200).

Fixpoint mfoldl {S X : Type} (f : S -> X -> M S) (l : list X) (s : S) : M S :=
  match l with
  | [] => mret s
  | x :: l => let! s' := f s x in mfoldl f l s'
  end.

(** [plane.grid.flat]: only an array has it. *)
Definition grid_flat : M (list rowval) :=
  fun g =>
    match g with
    | Plane.GRows rows => (g, Ok rows)
    | _ => (g, Raise AttributeError)
    end.

(** [plane.grid.flat[k]]. *)
Definition grid_flat_get (k : Z) : M rowval :=
  let! flat := grid_flat in lift (py_getitem flat k).

(** [plane.grid.flat[i] = v]. *)
Definition grid_flat_set (i : Z) (v : rowval) : M unit :=
  fun g =>
    match g with
    | Plane.GRows rows =>
        match py_index (Z.of_nat (length rows)) i with
        | Ok i => (Plane.GRows (<[Z.to_nat i := v]> rows), Ok tt)
        | Raise e => (g, Raise e)
        end
    | _ => (g, Raise AttributeError)
    end.

(** [Neighborhood(flat_index, bit_index, total)]; the class is not among
    the sources, its instance is the record of the three arguments. *)
Record Neighborhood : Type := mkNeighborhood {
  flat_index : nat;
  bit_index : nat;
  total : Z
}.

(** A name that no assignment, parameter or import of the module binds. *)
Definition unbound {A : Type} (name : string) : result A := Raise (NameError name).

Section ApplyTo.

(** [bitarray(n)] allocates [n] bits and the code never initialises
    them: [bitarray_bits k i] is bit [i] of the row allocated for flat
    index [k] as the library hands it out. [bitarray] itself is
    imported nowhere in the sources. *)
Variable bitarray_bits : nat -> nat -> bool.

(** [config.passes(neighborhood, vfunc, *args)]: the call hands a
    [Neighborhood], a class absent from the sources, to a method
    written for a flat index and a grid. What the call returns is not
    fixed by the sources; it is a parameter, which receives everything
    the call passes and returns the pair [(success, state)] or
    raises. *)
Variable passes :
  Configuration.t (list arg) (Z * Z) -> Neighborhood ->
  Configuration.callee (list arg) bool -> list arg -> result (bool * bool).

Variable self : t.
Variable args : list arg.

Definition bitarray (k : nat) (n : Z) : result (list bool) :=
  if n <? 0 then Raise ValueError else Ok (bitarray_bits k <$> py_range n).

(** Lines 98-101: one number per offset, the neighbouring row printed,
    cut at [bit_offset] and read back as a numeral. *)
Definition neighboring_step (flat_index : nat) (neighboring : list Z)
    (offset : Z * Z) : M (list Z) :=
  let '(flat_offset, bit_offset) := offset in
  let! row := grid_flat_get (Z.of_nat flat_index + flat_offset) in
  let neighbor := str row in
  let! v := lift (py_int (slice_from neighbor (bit_offset + 1)
                            ++ slice_to neighbor bit_offset)) in
  mret (neighboring ++ [v]).

(** Lines 105-108. [offset_totals] is bound nowhere, so the list
    comprehension raises as soon as it has one element to build; a
    chunk would be a number, which [zip] cannot iterate. *)
Definition chunk_sums (neighboring : list Z) : result (list Z) :=
  rmapM
    (fun i =>
       let? offset_totals := unbound "offset_totals" in
       Ok (foldr Z.add 0 (slice_to (slice_from offset_totals i) 9)))
    (range9 (length neighboring)).

Definition add_chunk (totals : list Z) (chunk : Z) : result (list Z) :=
  Raise TypeError.

Definition column_totals (config : Configuration.t (list arg) (Z * Z))
    (flat_index : nat) : M (list Z) :=
  let! neighboring :=
    mfoldl (neighboring_step flat_index) (Configuration.offsets config) [] in
  let totals := replicate (Z.to_nat (N self)) 0 in
  let! chunks := lift (chunk_sums neighboring) in
  lift (rfoldl add_chunk chunks totals).

(** Lines 111-117, one bit of the row. *)
Definition cell_step (config : Configuration.t (list arg) (Z * Z))
    (flat_index : nat) (totals : list Z)
    (st : list bool * list nat) (bit_index : nat) : result (list bool * list nat) :=
  let '(next_row, next_update) := st in
  let? total := py_getitem totals (Z.of_nat bit_index) in
  let neighborhood := mkNeighborhood flat_index bit_index total in
  let? (success, state) :=
    passes config neighborhood (vfunc_of (method self)) args in
  if success : bool then Ok (<[bit_index := state]> next_row, next_update)
  else Ok (next_row, next_update ++ [bit_index]).

(** Lines 86-120, one configuration applied to the bits left. *)
Definition config_step (flat_index : nat)
    (st : list bool * list nat)
    (config : Configuration.t (list arg) (Z * Z)) : M (list bool * list nat) :=
  let '(next_row, to_update) := st in
  let! totals := column_totals config flat_index in
  lift (rfoldl (cell_step config flat_index totals) to_update (next_row, [])).

(** Lines 84-120, the body of the loop over the rows: the row that
    [next_row] is when the configurations are through. *)
Definition row_body (flat_index : nat) : M (list bool) :=
  let! next_row := lift (bitarray flat_index (N self)) in
  let to_update := py_range (N self) in
  let! (next_row, _) :=
    mfoldl (config_step flat_index) (configurations self) (next_row, to_update) in
  mret next_row.

(** Line 123. *)
Definition row_step (next_grid : list (list bool)) (flat_index : nat)
    : M (list (list bool)) :=
  let! next_row := row_body flat_index in
  mret (next_grid ++ [next_row]).

(** Lines 66-123: all the rows, collected in [next_grid]. *)
Definition compute_rows : M (list (list bool)) :=
  let! flat := grid_flat in
  mfoldl row_step (seq 0 (length flat)) [].

(** Lines 126-127: the rows are stored, one after the other. *)
Definition store_row (next_grid : list (list bool)) (_ : unit) (i : nat) : M unit :=
  let! row := lift (py_getitem next_grid (Z.of_nat i)) in
  grid_flat_set (Z.of_nat i) (RBits row).

Definition store_rows (next_grid : list (list bool)) : M unit :=
  let! flat := grid_flat in
  mfoldl (store_row next_grid) (seq 0 (length flat)) tt.

(** [Ruleset.apply_to(self, plane, *args)]. *)
Definition apply_to : M unit :=
  let! next_grid := compute_rows in
  store_rows next_grid.

End ApplyTo.

End Ruleset.

(** * Vocabulary of the statements *)

(** The row values a storage holds. *)
Definition words (g : Plane.storage) : list rowval :=
  match g with
  | Plane.GNone => []
  | Plane.GWord w => [w]
  | Plane.GRows rows => rows
  end.

Definition is_number (r : rowval) : Prop := ∃ w, r = RInt w.

(** A plane as [Plane.__init__] builds it for positive dimensions, with any
    numbers for rows: the storage has the form that goes with the shape. *)
Definition well_formed (p : Plane.t) : Prop :=
  Forall (Z.lt 0) (Plane.shape p) ∧
  Forall is_number (words (Plane.grid p)) ∧
  match Plane.shape p with
  | [] => Plane.grid p = Plane.GNone
  | [_] => ∃ w, Plane.grid p = Plane.GWord w
  | _ => ∃ rows, Plane.grid p = Plane.GRows rows ∧
                 Z.of_nat (length rows) = np_prod (removelast (Plane.shape p))
  end.

(** The coordinates numpy and Python accept on an axis of size [n]. *)
Definition in_period (c n : Z) : Prop := - n <= c < n.

(** The fraction of mismatching neighbours as the specification defines it:
    the neighbour values that differ from the expected ones, over the
    number of offsets of the configuration. *)
Definition mismatch_fraction (neighbours states : list Z) : Q :=
  Qmake (Ruleset.np_count_nonzero (zip_with Z.lxor neighbours states))
        (Pos.of_nat (length states)).

(** A computation that leaves the plane's storage as it found it. *)
Definition reads_only {A : Type} (m : Ruleset.M A) : Prop :=
  ∀ g, fst (m g) = g.



(** * Properties *)
(** ** Indexing *)

Lemma py_index_in n idx : 0 <= idx < n -> py_index n idx = Ok idx.
Proof.
  intros H. unfold py_index.
  destruct (Z.leb_spec 0 idx), (Z.ltb_spec idx n); simpl; try lia. reflexivity.
Qed.

Lemma py_index_neg n idx : - n <= idx < 0 -> py_index n idx = Ok (idx + n).
Proof.
  intros H. unfold py_index.
  destruct (Z.leb_spec 0 idx); simpl; [lia|].
  destruct (Z.leb_spec (- n) idx), (Z.ltb_spec idx 0); simpl; try lia. reflexivity.
Qed.

Lemma py_index_out n idx : ¬ (- n <= idx < n) -> py_index n idx = Raise IndexError.
Proof.
  intros H. unfold py_index.
  destruct (Z.leb_spec 0 idx), (Z.ltb_spec idx n), (Z.leb_spec (- n) idx),
    (Z.ltb_spec idx 0); simpl; try lia; reflexivity.
Qed.

Lemma py_index_mod n idx :
  - n <= idx < n -> py_index n (idx mod n) = py_index n idx.
Proof.
  intros H. destruct (Z.neg_nonneg_cases idx) as [Hneg|Hpos].
  - rewrite (py_index_neg n idx) by lia.
    replace (idx mod n) with (idx + n).
    + apply py_index_in. lia.
    + apply Z.mod_unique with (q := -1); lia.
  - rewrite Z.mod_small by lia. reflexivity.
Qed.

Lemma py_getitem_nat {A} (l : list A) (i : nat) (a : A) :
  l !! i = Some a -> py_getitem l (Z.of_nat i) = Ok a.
Proof.
  intros H. unfold py_getitem.
  pose proof (lookup_lt_Some _ _ _ H).
  rewrite py_index_in by lia. simpl. rewrite Nat2Z.id, H. reflexivity.
Qed.

Lemma py_getitem_out {A} (l : list A) (idx : Z) :
  ¬ (- Z.of_nat (length l) <= idx < Z.of_nat (length l)) ->
  py_getitem l idx = Raise IndexError.
Proof. intros H. unfold py_getitem. rewrite py_index_out by assumption. reflexivity. Qed.

Lemma py_getitem_mod {A} (l : list A) (idx : Z) :
  - Z.of_nat (length l) <= idx < Z.of_nat (length l) ->
  py_getitem l (idx mod Z.of_nat (length l)) = py_getitem l idx.
Proof. intros H. unfold py_getitem. rewrite py_index_mod by assumption. reflexivity. Qed.

Lemma py_getitem_in {A} (l : list A) (idx : Z) :
  - Z.of_nat (length l) <= idx < Z.of_nat (length l) ->
  ∃ a, py_getitem l idx = Ok a ∧ a ∈ l.
Proof.
  intros H. unfold py_getitem.
  assert (∃ i, py_index (Z.of_nat (length l)) idx = Ok i ∧ 0 <= i < Z.of_nat (length l))
    as (i & -> & Hi).
  { destruct (Z.neg_nonneg_cases idx).
    - exists (idx + Z.of_nat (length l)). split; [apply py_index_neg|]; lia.
    - exists idx. split; [apply py_index_in|]; lia. }
  simpl. destruct (lookup_lt_is_Some_2 l (Z.to_nat i)) as [a Ha]; [lia|].
  rewrite Ha. exists a. split; [reflexivity|]. eapply list_elem_of_lookup_2; eauto.
Qed.

(** ** [Plane._flatten] *)

Section Flatten.

Variable dimen : list Z.




End Flatten.




(** ** [Plane.__getitem__] *)

Lemma py_index_period n c :
  in_period c n ->
  ∃ i, py_index n c = Ok i ∧ 0 <= i < n ∧ py_index n (c mod n) = Ok i.
Proof.
  intros H. rewrite py_index_mod by exact H. unfold in_period in H.
  destruct (Z.neg_nonneg_cases c).
  - exists (c + n). rewrite py_index_neg by lia. split; [reflexivity|]. split; [lia|reflexivity].
  - exists c. rewrite py_index_in by lia. split; [reflexivity|]. split; [lia|reflexivity].
Qed.

Lemma forallb_nonneg dims : Forall (Z.lt 0) dims -> forallb (Z.leb 0) dims = true.
Proof.
  induction 1 as [|d dims Hd _ IH]; simpl; [reflexivity|].
  rewrite IH, andb_true_r. apply Z.leb_le. lia.
Qed.

Lemma np_prod_pos dims : Forall (Z.lt 0) dims -> 0 < np_prod dims.
Proof. unfold np_prod. induction 1 as [|d dims Hd _ IH]; simpl; [lia|nia]. Qed.

Lemma Forall_removelast {A} (P : A -> Prop) (l : list A) :
  Forall P l -> Forall P (removelast l).
Proof.
  induction 1 as [|x l Hx Hl IH]; simpl; [constructor|].
  destruct l; [constructor|]. constructor; assumption.
Qed.

Lemma getitem_fold_raise idx e :
  fold_left Plane.getitem_step idx (Raise e) = Raise e.
Proof. induction idx; simpl; auto. Qed.

Lemma getitem_cons p c idx :
  Plane.__getitem__ p (c :: idx) =
  fold_left Plane.getitem_step idx (Plane.getitem_int p c).
Proof. reflexivity. Qed.

(** Indexing the only axis of a 1-D plane gives a bit. *)
Lemma getitem_int_bit p n c :
  well_formed p -> Plane.shape p = [n] -> in_period c n ->
  ∃ b, Plane.getitem_int p c = Ok (Plane.Bit b) ∧
       Plane.getitem_int p (c mod n) = Ok (Plane.Bit b) ∧
       (Forall (eq (RInt 0)) (words (Plane.grid p)) -> b = 0).
Proof.
  intros (Hpos & Hnum & Hgrid) Hshape Hc. unfold Plane.getitem_int.
  rewrite Hshape in *. destruct Hgrid as [w Hw]. rewrite Hw in *.
  simpl in Hnum. rewrite Forall_singleton in Hnum. rewrite Forall_singleton in Hpos.
  destruct Hnum as [v ->].
  simpl. set (bits := _ <$> py_range n).
  assert (Z.of_nat (length bits) = n) as Hlen.
  { unfold bits, py_range. rewrite length_fmap, length_seq. lia. }
  rewrite <- Hlen in Hc |- *. unfold in_period in Hc.
  rewrite py_getitem_mod by exact Hc.
  destruct (py_getitem_in bits c Hc) as (b & -> & Hb). exists b. simpl.
  repeat split. intros Hz. rewrite Forall_singleton in Hz. injection Hz as <-.
  unfold bits in Hb. apply list_elem_of_fmap in Hb as (i & -> & _).
  rewrite Z.testbit_0_l. reflexivity.
Qed.

(** Indexing the first axis of a plane of two or more dimensions gives the
    plane of the remaining ones, over rows of the indexed plane. *)
Lemma getitem_int_sub p n m rest c :
  well_formed p -> Plane.shape p = n :: m :: rest -> in_period c n ->
  ∃ q, Plane.getitem_int p c = Ok (Plane.Sub q) ∧
       Plane.getitem_int p (c mod n) = Ok (Plane.Sub q) ∧
       well_formed q ∧ Plane.shape q = m :: rest ∧
       words (Plane.grid q) ⊆ words (Plane.grid p).
Proof.
  intros (Hpos & Hnum & Hgrid) Hshape Hc. unfold Plane.getitem_int.
  destruct p as [sh g]. simpl in *. subst sh.
  destruct Hgrid as (rows & -> & Hlen). simpl in Hnum.
  assert (Forall (Z.lt 0) (n :: removelast (m :: rest))) as Hlead.
  { apply (Forall_removelast _ (n :: m :: rest)). exact Hpos. }
  change (removelast (n :: m :: rest)) with (n :: removelast (m :: rest)) in *.
  unfold Plane.np_reshape. rewrite (forallb_nonneg _ Hlead).
  rewrite Hlen, Z.eqb_refl. simpl andb. cbv iota. cbn [rbind].
  destruct (py_index_period n c Hc) as (i & -> & Hi & ->). cbn [rbind].
  apply Forall_cons in Hlead as [Hn Hinner]. apply Forall_cons in Hpos as [_ Hrest].
  pose proof (np_prod_pos _ Hinner) as Hprod.
  change (np_prod (n :: removelast (m :: rest)))
    with (n * np_prod (removelast (m :: rest))) in Hlen.
  change (tl (n :: removelast (m :: rest))) with (removelast (m :: rest)).
  destruct (removelast (m :: rest)) as [|x inner] eqn:Hrm.
  - destruct rest; [|simpl in Hrm; discriminate]. change (np_prod []) with 1 in Hlen.
    destruct (py_getitem_in rows i ltac:(lia)) as (w & -> & Hw). cbn [rbind].
    eexists. repeat split; try reflexivity; simpl.
    + exact Hrest.
    + constructor; [|constructor]. eapply (proj1 (Forall_forall _ _) Hnum); eauto.
    + eauto.
    + intros r Hr. apply list_elem_of_singleton in Hr. subst r. exact Hw.
  - destruct rest as [|r rest]; [simpl in Hrm; discriminate|].
    assert (Plane.__init__ (m :: r :: rest) =
            Ok (Plane.mk (m :: r :: rest)
                  (Plane.GRows (replicate (Z.to_nat (np_prod (x :: inner))) (RInt 0)))))
      as ->.
    { unfold Plane.__init__. rewrite Hrm. unfold Plane.np_zeros.
      destruct (Z.ltb_spec (np_prod (x :: inner)) 0); [lia|]. reflexivity. }
    cbn [rbind]. fold (np_prod (x :: inner)).
    eexists. repeat split; try reflexivity; cbn [Plane.shape Plane.grid words].
    + exact Hrest.
    + eapply Forall_take, Forall_drop. exact Hnum.
    + eexists. split; [reflexivity|]. rewrite Hrm.
      rewrite length_take, length_drop.
      change (x * np_prod inner) with (np_prod (x :: inner)).
      set (k := Z.to_nat (np_prod (x :: inner))) in *.
      assert (Z.of_nat k = np_prod (x :: inner)) as Hk by (unfold k; lia).
      assert (Z.to_nat i * k + k <= length rows)%nat.
      { apply Nat2Z.inj_le. rewrite Nat2Z.inj_add, Nat2Z.inj_mul, Z2Nat.id by lia. nia. }
      lia.
    + etrans; [apply subseteq_take|apply subseteq_drop].
Qed.

Lemma getitem_int_out p n rest c :
  well_formed p -> Plane.shape p = n :: rest -> ¬ in_period c n ->
  Plane.getitem_int p c = Raise IndexError.
Proof.
  intros (Hpos & Hnum & Hgrid) Hshape Hc. unfold Plane.getitem_int.
  destruct p as [sh g]. simpl in *. subst sh. destruct rest as [|m rest].
  - destruct Hgrid as [w ->]. simpl in Hnum. rewrite Forall_singleton in Hnum.
    rewrite Forall_singleton in Hpos.
    destruct Hnum as [v ->]. cbn [Plane.bits_of rbind].
    rewrite py_getitem_out; [reflexivity|].
    unfold py_range. rewrite length_fmap, length_seq, Z2Nat.id by lia. exact Hc.
  - destruct Hgrid as (rows & -> & Hlen).
    pose proof (Forall_removelast _ _ Hpos) as Hlead.
    unfold Plane.np_reshape. rewrite (forallb_nonneg _ Hlead), Hlen, Z.eqb_refl.
    cbn [andb rbind]. rewrite py_index_out by exact Hc. reflexivity.
Qed.

(** Coordinates within one period of their axes: reading goes through,
    to a plane while axes remain and to a bit once all are given, and is
    the same for the coordinates reduced modulo the axis sizes. *)
Lemma getitem_in_period idx :
  ∀ p, well_formed p ->
    Forall2 in_period idx (take (length idx) (Plane.shape p)) ->
    Plane.__getitem__ p (zip_with Z.modulo idx (Plane.shape p)) = Plane.__getitem__ p idx ∧
    ((length idx < length (Plane.shape p))%nat ∨ idx = [] ->
       ∃ q, Plane.__getitem__ p idx = Ok (Plane.Sub q) ∧ well_formed q ∧
            Plane.shape q = drop (length idx) (Plane.shape p) ∧
            words (Plane.grid q) ⊆ words (Plane.grid p)) ∧
    (length idx = length (Plane.shape p) -> idx ≠ [] ->
       ∃ b, Plane.__getitem__ p idx = Ok (Plane.Bit b) ∧
            (Forall (eq (RInt 0)) (words (Plane.grid p)) -> b = 0)).
Proof.
  induction idx as [|c idx IH]; intros p Hwf Hidx.
  - split; [destruct (Plane.shape p); reflexivity|]. split.
    + intros _. exists p. split; [reflexivity|]. split; [assumption|].
      split; reflexivity.
    + intros _ []. reflexivity.
  - destruct (Plane.shape p) as [|n rest] eqn:Hshape; [inversion Hidx|].
    simpl in Hidx. apply Forall2_cons in Hidx as [Hc Hidx].
    change (zip_with Z.modulo (c :: idx) (n :: rest))
      with (c mod n :: zip_with Z.modulo idx rest).
    rewrite !getitem_cons. destruct rest as [|m rest].
    + rewrite take_nil in Hidx. apply Forall2_nil_inv_r in Hidx. subst idx.
      destruct (getitem_int_bit p n c Hwf Hshape Hc) as (b & Hb & Hbm & Hz).
      simpl. rewrite Hb, Hbm. split; [reflexivity|]. split.
      * simpl. intros [?|?]; [lia|discriminate].
      * intros _ _. exists b. split; [reflexivity|exact Hz].
    + destruct (getitem_int_sub p n m rest c Hwf Hshape Hc)
        as (q & Hq & Hqm & Hwfq & Hsq & Hwords).
      rewrite Hq, Hqm. rewrite <- Hsq in Hidx |- *.
      destruct (IH q Hwfq Hidx) as (Hmod & Hsub & Hbit).
      change (fold_left Plane.getitem_step ?l (Ok (Plane.Sub q)))
        with (Plane.__getitem__ q l).
      split; [exact Hmod|]. split.
      * intros Hlt. destruct Hsub as (r & Hr & ? & ? & ?).
        { destruct Hlt as [Hlt|?]; [|discriminate]. left. simpl in Hlt. lia. }
        exists r. split; [assumption|]. split; [assumption|].
        split; [assumption|]. etrans; eassumption.
      * intros Hlen _. destruct idx as [|c' idx'].
        { simpl in Hlen. rewrite Hsq in Hlen. simpl in Hlen. lia. }
        destruct Hbit as (b & Hb & Hz); [simpl in Hlen |- *; lia|discriminate|].
        exists b. split; [exact Hb|]. intros Hall. apply Hz.
        eapply Forall_forall. intros w Hw. apply Hwords in Hw.
        eapply (proj1 (Forall_forall _ _) Hall); eauto.
Qed.

(** C3 (as the code has it). [__getitem__] indexes with the rules of
    Python and numpy and reduces nothing: on a well-formed plane,
    coordinates that each lie within one period of their axis, from
    [-size] up to [size - 1], are read without error and give the same
    result as the coordinates reduced modulo the axis sizes; one more
    coordinate outside that range raises [IndexError]. *)
Theorem getitem_wraps_within_one_period (p : Plane.t) (idx : list Z) :
  well_formed p ->
  Forall2 in_period idx (take (length idx) (Plane.shape p)) ->
  (∃ it, Plane.__getitem__ p idx = Ok it) ∧
  Plane.__getitem__ p (zip_with Z.modulo idx (Plane.shape p)) = Plane.__getitem__ p idx ∧
  (∀ c n, Plane.shape p !! length idx = Some n -> ¬ in_period c n ->
          Plane.__getitem__ p (idx ++ [c]) = Raise IndexError).
Proof.
  intros Hwf Hidx.
  destruct (getitem_in_period idx p Hwf Hidx) as (Hmod & Hsub & Hbit).
  pose proof (Forall2_length _ _ _ Hidx) as Hlen. rewrite length_take in Hlen.
  split; [|split; [exact Hmod|]].
  - destruct (decide (length idx = length (Plane.shape p))) as [Heq|Hne].
    + destruct idx as [|c idx].
      * destruct Hsub as (q & -> & _); eauto.
      * destruct Hbit as (b & -> & _); eauto.
    + destruct Hsub as (q & -> & _); eauto. left. lia.
  - intros c n Hn Hc. apply lookup_lt_Some in Hn as Hlt.
    destruct Hsub as (q & Hq & Hwfq & Hsq & _); [left; exact Hlt|].
    unfold Plane.__getitem__ in *. rewrite fold_left_app, Hq. simpl.
    apply (getitem_int_out q n (drop (S (length idx)) (Plane.shape p))); try assumption.
    rewrite Hsq. apply drop_S. exact Hn.
Qed.

Lemma getitem_wraps_within_one_period_witness :
  (∃ it, Plane.__getitem__ (Plane.mk [2; 3] (Plane.GRows [RInt 5; RInt 2])) [-1] = Ok it) ∧
  Plane.__getitem__ (Plane.mk [2; 3] (Plane.GRows [RInt 5; RInt 2]))
    (zip_with Z.modulo [-1] [2; 3]) =
  Plane.__getitem__ (Plane.mk [2; 3] (Plane.GRows [RInt 5; RInt 2])) [-1] ∧
  (∀ c n, [2; 3] !! 1%nat = Some n -> ¬ in_period c n ->
          Plane.__getitem__ (Plane.mk [2; 3] (Plane.GRows [RInt 5; RInt 2]))
            ([-1] ++ [c]) = Raise IndexError).
Proof.
  apply (getitem_wraps_within_one_period
           (Plane.mk [2; 3] (Plane.GRows [RInt 5; RInt 2])) [-1]).
  - split; [repeat constructor|]. split.
    + repeat constructor; eexists; reflexivity.
    + exists [RInt 5; RInt 2]. split; reflexivity.
  - repeat constructor; unfold in_period; lia.
Defined.

(** C3 as stated fails: on a 2 x 3 plane the row coordinate 2, equal to the
    axis size, raises [IndexError], while the wrapped coordinate 0 reads
    the bit; the same holds for the coordinate -3. *)
Lemma getitem_out_of_range_counterexample :
  Plane.__getitem__ (Plane.mk [2; 3] (Plane.GRows [RInt 5; RInt 2])) [2; 0] = Raise IndexError ∧
  Plane.__getitem__ (Plane.mk [2; 3] (Plane.GRows [RInt 5; RInt 2])) [-3; 0] = Raise IndexError ∧
  Plane.__getitem__ (Plane.mk [2; 3] (Plane.GRows [RInt 5; RInt 2]))
    (zip_with Z.modulo [2; 0] [2; 3]) = Ok (Plane.Bit 1).
Proof. repeat split; reflexivity. Qed.

(** ** [Plane.__init__] *)





(** ** The neighbourhood factories *)

Section Moore.

Variable value : Z.










End Moore.

Section Neumann.

Variable value : Z.
Variable n : nat.








End Neumann.



(** ** [Configuration.passes] *)

(** C10. With a callable [next_state], [passes] calls it after [vfunc]
    whatever [vfunc] answered, on the same arguments, and returns what it
    returned as the second component, also when the answer was [False]. *)
Theorem passes_evaluates_callable_next_state {A : Type}
    (self : Configuration.t A Z) (f : Configuration.callee A Z)
    (f_index : Z) (grid : list Z) (vfunc : Configuration.callee A bool) (args : A)
    (success : bool) (state : Z) :
  let indices :=
    (fun o => Configuration.np_mod (f_index + o) (Z.of_nat (length grid)))
      <$> Configuration.offsets self in
  Configuration.next_state self = Configuration.Callable f ->
  vfunc f_index grid indices (Configuration.states self) args = Ok success ->
  f f_index grid indices (Configuration.states self) args = Ok state ->
  Configuration.passes self f_index grid vfunc args =
    ([Configuration.CallVfunc indices; Configuration.CallNextState indices],
     Ok (success, state)).
Proof.
  intros indices Hnext Hv Hf. unfold Configuration.passes. fold indices.
  rewrite Hv, Hnext, Hf. reflexivity.
Qed.

Lemma passes_evaluates_callable_next_state_witness :
  Configuration.passes
    (Configuration.mk (Configuration.Callable (fun _ _ _ _ (_ : unit) => Ok 1)) [1; 1] [-1; 1])
    0 [0; 1; 0] (fun _ _ _ _ _ => Ok false) tt =
  ([Configuration.CallVfunc [2; 1]; Configuration.CallNextState [2; 1]], Ok (false, 1)).
Proof.
  apply (passes_evaluates_callable_next_state
           (Configuration.mk (Configuration.Callable (fun _ _ _ _ (_ : unit) => Ok 1))
              [1; 1] [-1; 1])
           (fun _ _ _ _ _ => Ok 1) 0 [0; 1; 0] (fun _ _ _ _ _ => Ok false) tt false 1);
    reflexivity.
Defined.

(** ** [Ruleset._tolerates] *)

(** What [_tolerates] compares with the tolerance: the mismatches over the
    length of the whole flat grid. *)
Lemma tolerates_ratio f_index f_grid indices states tolerance picked :
  Ruleset.np_take f_grid indices = Ok picked ->
  length picked = length states ->
  f_grid ≠ [] ->
  Ruleset._tolerates f_index f_grid indices states (Ruleset.ArgNum tolerance) =
  Ok (Qle_bool tolerance
        (Qmake (Ruleset.np_count_nonzero (zip_with Z.lxor picked states))
               (Pos.of_nat (length f_grid)))).
Proof.
  intros Hpicked Hlen Hne. unfold Ruleset._tolerates. rewrite Hpicked. simpl.
  unfold Ruleset.np_xor. rewrite Hlen, Nat.eqb_refl. simpl.
  destruct f_grid; [congruence|reflexivity].
Qed.

(** C1 at the diverging input. A grid of four cells, of which the first is
    on; a configuration of two offsets that expects both neighbours, the
    cells 0 and 1, to be off; tolerance 1/2. One neighbour of two
    mismatches, so the fraction of mismatching neighbours is 1/2 and
    reaches the tolerance; [_tolerates] divides by the four cells of the
    grid, compares 1/4 with 1/2 and answers [False]. *)
Theorem tolerates_divides_by_grid_length :
  Ruleset.np_take [1; 0; 0; 0] [0; 1] = Ok [1; 0] ∧
  Qle_bool (1 # 2) (mismatch_fraction [1; 0] [0; 0]) = true ∧
  Ruleset._tolerates 0 [1; 0; 0; 0] [0; 1] [0; 0] (Ruleset.ArgNum (1 # 2)) = Ok false ∧
  Ruleset.vfunc_of Ruleset.TOLERATE 0 [1; 0; 0; 0] [0; 1] [0; 0] [Ruleset.ArgNum (1 # 2)]
    = Ok false.
Proof. repeat split; reflexivity. Qed.

(** ** [Ruleset.apply_to] *)

Section ReadsOnly.

Import Ruleset.

Lemma reads_only_run {A} (m : M A) g : reads_only m -> m g = (g, snd (m g)).
Proof. intros H. specialize (H g). destruct (m g); simpl in *; congruence. Qed.

Lemma reads_only_mret {A} (a : A) : reads_only (mret a).
Proof. intros g. reflexivity. Qed.

Lemma reads_only_lift {A} (r : result A) : reads_only (lift r).
Proof. intros g. reflexivity. Qed.

Lemma reads_only_mbind {A B} (m : M A) (k : A -> M B) :
  reads_only m -> (∀ a, reads_only (k a)) -> reads_only (mbind m k).
Proof.
  intros Hm Hk g. unfold mbind. rewrite (reads_only_run m g Hm).
  destruct (snd (m g)); [apply Hk|reflexivity].
Qed.

Lemma reads_only_mfoldl {S X} (f : S -> X -> M S) (l : list X) :
  (∀ s x, reads_only (f s x)) -> ∀ s, reads_only (mfoldl f l s).
Proof.
  intros Hf. induction l as [|x l IH]; intros s; simpl.
  - apply reads_only_mret.
  - apply reads_only_mbind; [apply Hf|exact IH].
Qed.

Lemma reads_only_grid_flat : reads_only grid_flat.
Proof. intros [| |]; reflexivity. Qed.

Lemma reads_only_grid_flat_get k : reads_only (grid_flat_get k).
Proof.
  apply reads_only_mbind; [apply reads_only_grid_flat|].
  intros flat. apply reads_only_lift.
Qed.

End ReadsOnly.

Create HintDb reads.
#[local] Hint Resolve reads_only_mret reads_only_lift reads_only_grid_flat
  reads_only_grid_flat_get : reads.

Section ApplyToProps.

Import Ruleset.

Variable bitarray_bits : nat -> nat -> bool.
Variable passes :
  Configuration.t (list arg) (Z * Z) -> Neighborhood ->
  Configuration.callee (list arg) bool -> list arg -> result (bool * bool).
Variable self : t.
Variable args : list arg.

Local Abbreviation row_body := (row_body bitarray_bits passes self args).
Local Abbreviation row_step := (row_step bitarray_bits passes self args).
Local Abbreviation compute_rows := (compute_rows bitarray_bits passes self args).
Local Abbreviation apply_to := (apply_to bitarray_bits passes self args).
Local Abbreviation config_step := (config_step passes self args).
Local Abbreviation cell_step := (cell_step passes self args).

Lemma reads_only_column_totals config flat_index :
  reads_only (column_totals self config flat_index).
Proof.
  unfold column_totals. apply reads_only_mbind.
  - apply reads_only_mfoldl. intros neighboring [flat_offset bit_offset].
    unfold neighboring_step. apply reads_only_mbind; [auto with reads|].
    intros row. apply reads_only_mbind; auto with reads.
  - intros neighboring. apply reads_only_mbind; auto with reads.
Qed.

Lemma reads_only_config_step flat_index st config :
  reads_only (config_step flat_index st config).
Proof.
  destruct st as [next_row to_update]. unfold Ruleset.config_step.
  apply reads_only_mbind; [apply reads_only_column_totals|auto with reads].
Qed.

Lemma reads_only_row_body flat_index : reads_only (row_body flat_index).
Proof.
  unfold Ruleset.row_body. apply reads_only_mbind; [auto with reads|].
  intros next_row. apply reads_only_mbind.
  - apply reads_only_mfoldl. intros. apply reads_only_config_step.
  - intros [next_row' to_update]. auto with reads.
Qed.

Lemma reads_only_row_step next_grid flat_index :
  reads_only (row_step next_grid flat_index).
Proof.
  unfold Ruleset.row_step. apply reads_only_mbind; [apply reads_only_row_body|].
  auto with reads.
Qed.

Lemma reads_only_compute_rows : reads_only compute_rows.
Proof.
  unfold Ruleset.compute_rows. apply reads_only_mbind; [auto with reads|].
  intros flat. apply reads_only_mfoldl. apply reads_only_row_step.
Qed.

(** The loop over the rows appends, for each flat index in turn, the row
    that the body computes on the storage the loop started with. *)
Lemma rows_loop g n :
  ∀ a acc next_grid,
    snd (mfoldl row_step (seq a n) acc g) = Ok next_grid ->
    ∃ rows, next_grid = acc ++ rows ∧ length rows = n ∧
            ∀ j row, rows !! j = Some row -> row_body (a + j) g = (g, Ok row).
Proof.
  induction n as [|n IH]; intros a acc next_grid; simpl.
  - intros [= <-]. exists []. rewrite app_nil_r. repeat split. intros j row Hj. inversion Hj.
  - unfold mbind at 1. unfold Ruleset.row_step at 1. unfold mbind at 1.
    rewrite (reads_only_run _ g (reads_only_row_body a)).
    destruct (snd (row_body a g)) as [row|e] eqn:Hrow; [|discriminate].
    simpl. intros Hrest. apply IH in Hrest as (rows & -> & Hlen & Hrows).
    exists (row :: rows). rewrite <- app_assoc. split; [reflexivity|].
    split; [simpl; congruence|]. intros [|j] r Hj.
    + injection Hj as <-. rewrite Nat.add_0_r.
      rewrite (reads_only_run _ g (reads_only_row_body a)), Hrow. reflexivity.
    + rewrite <- Nat.add_succ_comm. apply Hrows. exact Hj.
Qed.

(** The final loop overwrites the rows one after the other with the
    collected ones. *)
Lemma store_loop (next_grid : list (list bool)) n :
  ∀ a cur,
    (a + n = length next_grid)%nat -> length cur = length next_grid ->
    mfoldl (store_row next_grid) (seq a n) tt (Plane.GRows cur) =
    (Plane.GRows (take a cur ++ (RBits <$> drop a next_grid)), Ok tt).
Proof.
  induction n as [|n IH]; intros a cur Ha Hcur; simpl.
  - rewrite drop_ge, take_ge, app_nil_r by lia. reflexivity.
  - destruct (lookup_lt_is_Some_2 next_grid a ltac:(lia)) as [row Hrow].
    unfold mbind at 1. unfold store_row at 1. unfold mbind at 1, lift at 1.
    rewrite (py_getitem_nat _ _ _ Hrow). unfold grid_flat_set.
    rewrite py_index_in by lia. rewrite Nat2Z.id.
    rewrite IH by (rewrite ?length_insert; lia).
    rewrite (drop_S _ _ _ Hrow), fmap_cons.
    rewrite (take_S_r _ _ (RBits row)) by (apply list_lookup_insert_eq; lia).
    rewrite take_insert_ge, <- app_assoc by lia. reflexivity.
Qed.

(** A run of [apply_to], in its two phases. *)
Lemma apply_to_run (g : Plane.storage) :
  fst (compute_rows g) = g ∧
  match snd (compute_rows g) with
  | Raise e => apply_to g = (g, Raise e)
  | Ok next_grid =>
      ∃ flat, g = Plane.GRows flat ∧ length next_grid = length flat ∧
              (∀ i row, next_grid !! i = Some row -> row_body i g = (g, Ok row)) ∧
              apply_to g = (Plane.GRows (RBits <$> next_grid), Ok tt)
  end.
Proof.
  split; [apply reads_only_compute_rows|].
  unfold Ruleset.apply_to, mbind.
  rewrite (reads_only_run _ g reads_only_compute_rows).
  destruct (snd (compute_rows g)) as [next_grid|e] eqn:Hrows; [|reflexivity].
  unfold Ruleset.compute_rows, mbind, grid_flat in Hrows.
  destruct g as [|w|flat]; try discriminate.
  apply rows_loop in Hrows as (rows & -> & Hlen & Hrows). simpl app.
  exists flat. split; [reflexivity|].
  split; [exact Hlen|]. split; [exact Hrows|].
  unfold store_rows, mbind, grid_flat.
  rewrite store_loop by (simpl; lia). reflexivity.
Qed.

(** C8. The loop over the rows leaves the plane's storage untouched,
    whether it ends or raises; each row it collects is the one the loop
    body computes on the storage as it was when [apply_to] was called; and
    [apply_to] writes to the storage only when all rows are collected,
    replacing every row by its collected one. When a row raises, the
    storage is still the prior generation. *)
Theorem apply_to_reads_prior_generation (g : Plane.storage) :
  fst (compute_rows g) = g ∧
  match snd (compute_rows g) with
  | Raise e => apply_to g = (g, Raise e)
  | Ok next_grid =>
      ∃ flat, g = Plane.GRows flat ∧ length next_grid = length flat ∧
              (∀ i row, next_grid !! i = Some row -> row_body i g = (g, Ok row)) ∧
              apply_to g = (Plane.GRows (RBits <$> next_grid), Ok tt)
  end.
Proof. exact (apply_to_run g). Qed.





End ApplyToProps.






(** The numbers collected for a configuration are as many as its offsets. *)
Lemma neighboring_length flat_index offsets :
  ∀ acc g neighboring,
    snd (Ruleset.mfoldl (Ruleset.neighboring_step flat_index) offsets acc g)
      = Ok neighboring ->
    length neighboring = (length acc + length offsets)%nat.
Proof.
  induction offsets as [|[flat_offset bit_offset] offsets IH];
    intros acc g neighboring; cbn [Ruleset.mfoldl].
  - intros [= <-]. simpl. lia.
  - unfold Ruleset.mbind at 1.
    destruct (Ruleset.neighboring_step flat_index acc (flat_offset, bit_offset) g)
      as [g1 [acc1|e]] eqn:Hstep; [|simpl; discriminate].
    intros Hrest. apply IH in Hrest. rewrite Hrest.
    unfold Ruleset.neighboring_step, Ruleset.mbind, Ruleset.lift, Ruleset.mret in Hstep.
    destruct (Ruleset.grid_flat_get _ g) as [g2 [row|e]]; [|discriminate].
    destruct (Ruleset.py_int _) as [v|e]; [|discriminate].
    injection Hstep as _ <-. rewrite length_app. simpl. lia.
Qed.

(** The column totals come out for a configuration without offsets only:
    with one offset or more the summation raises. *)
Lemma column_totals_only_without_offsets self config flat_index g totals :
  snd (Ruleset.column_totals self config flat_index g) = Ok totals ->
  Configuration.offsets config = [].
Proof.
  unfold Ruleset.column_totals, Ruleset.mbind.
  destruct (Ruleset.mfoldl _ _ _ g) as [g1 [neighboring|e]] eqn:Hfold; [|discriminate].
  pose proof (neighboring_length flat_index (Configuration.offsets config) [] g neighboring)
    as Hlen.
  rewrite Hfold in Hlen. specialize (Hlen eq_refl). simpl in Hlen.
  destruct (Configuration.offsets config) as [|offset offsets]; [reflexivity|].
  simpl in Hlen. unfold Ruleset.lift at 1, Ruleset.chunk_sums, Ruleset.range9.
  rewrite Hlen.
  replace (S (length offsets) + 8)%nat with (length offsets + 1 * 9)%nat by lia.
  rewrite Nat.div_add by lia. rewrite Nat.add_1_r. simpl. discriminate.
Qed.

(** C5 at the diverging input. One row holding the numeral 10, rows two
    bits wide, one configuration with the single offset (0, 0). The cut of
    the printed row at [bit_offset] loses the digit at that place, the
    chunks are then read from a name that is bound nowhere, and no totals
    come out: the summation, and with it the whole update, raises
    [NameError]. *)
Theorem column_totals_reads_unbound_name
    (bitarray_bits : nat -> nat -> bool)
    (passes : Configuration.t (list Ruleset.arg) (Z * Z) -> Ruleset.Neighborhood ->
              Configuration.callee (list Ruleset.arg) bool -> list Ruleset.arg ->
              result (bool * bool)) :
  let config := Configuration.mk (Configuration.Constant 1) [1] [(0, 0)] in
  let self := Ruleset.mk Ruleset.MATCH [config] 2 in
  let neighbor := Ruleset.str (RInt 10) in
  neighbor = ["1"; "0"]%char ∧
  Ruleset.slice_from neighbor (0 + 1) ++ Ruleset.slice_to neighbor 0 = ["0"]%char ∧
  Ruleset.column_totals self config 0 (Plane.GRows [RInt 10])
    = (Plane.GRows [RInt 10], Raise (NameError "offset_totals")) ∧
  Ruleset.apply_to bitarray_bits passes self [] (Plane.GRows [RInt 10])
    = (Plane.GRows [RInt 10], Raise (NameError "offset_totals")).
Proof. repeat split; reflexivity. Qed.

(** * Further properties *)

(** ** [Plane._flatten] as a mixed-radix numeral *)












(** ** [Plane.__getitem__] and the layout of the rows *)







(** X5. A bit cannot be indexed: on a well-formed plane, coordinates
    for every axis followed by one coordinate more raise [TypeError],
    whatever comes after. *)
Theorem getitem_too_many_coordinates (p : Plane.t) (idx : list Z) (c : Z) (more : list Z) :
  well_formed p ->
  Plane.shape p ≠ [] ->
  Forall2 in_period idx (Plane.shape p) ->
  Plane.__getitem__ p (idx ++ c :: more) = Raise TypeError.
Proof.
  intros Hwf Hne Hidx. pose proof (Forall2_length _ _ _ Hidx) as Hlen.
  destruct (getitem_in_period idx p Hwf) as (_ & _ & Hbit).
  { rewrite Hlen, firstn_all. exact Hidx. }
  destruct Hbit as (b & Hb & _); [exact Hlen| |].
  { intros ->. destruct (Plane.shape p); [congruence|discriminate]. }
  unfold Plane.__getitem__ in *. rewrite fold_left_app, Hb. simpl.
  apply getitem_fold_raise.
Qed.

Lemma getitem_too_many_coordinates_witness :
  Plane.__getitem__ (Plane.mk [2; 3] (Plane.GRows [RInt 5; RInt 2])) ([1; 2] ++ 0 :: [])
  = Raise TypeError.
Proof.
  apply (getitem_too_many_coordinates
           (Plane.mk [2; 3] (Plane.GRows [RInt 5; RInt 2])) [1; 2] 0 []).
  - split; [repeat constructor|]. split.
    + repeat constructor; eexists; reflexivity.
    + eexists. split; reflexivity.
  - discriminate.
  - repeat constructor; unfold in_period; lia.
Defined.

(** ** The two neighbourhoods compared *)







(** ** The verification functions *)

Lemma count_nonzero_xor (a b : list Z) :
  length a = length b ->
  Ruleset.np_count_nonzero (zip_with Z.lxor a b) = 0 ↔ a = b.
Proof.
  unfold Ruleset.np_count_nonzero. revert b.
  induction a as [|x a IH]; intros [|y b] Hlen; try discriminate.
  - simpl. tauto.
  - injection Hlen as Hlen. specialize (IH b Hlen). cbn [zip_with].
    destruct (decide (Z.lxor x y = 0)) as [Hxy|Hxy].
    + rewrite filter_cons_False by (intros H; apply H; exact Hxy).
      apply Z.lxor_eq in Hxy as ->. rewrite IH. split; congruence.
    + rewrite filter_cons_True by exact Hxy. simpl length. split; [lia|].
      intros [= -> _]. contradiction Hxy. apply Z.lxor_nilpotent.
Qed.

Lemma matches_decides f_index f_grid indices states picked :
  Ruleset.np_take f_grid indices = Ok picked ->
  length picked = length states ->
  Ruleset._matches f_index f_grid indices states = Ok (bool_decide (picked = states)).
Proof.
  intros Hpicked Hlen. unfold Ruleset._matches. rewrite Hpicked. cbn [rbind].
  unfold Ruleset.np_xor. rewrite Hlen, Nat.eqb_refl. cbn [rbind]. f_equal.
  pose proof (count_nonzero_xor picked states Hlen) as Hcount.
  destruct (Z.eqb_spec (Ruleset.np_count_nonzero (zip_with Z.lxor picked states)) 0)
    as [Hz|Hz].
  - symmetry. apply bool_decide_eq_true. apply Hcount. exact Hz.
  - symmetry. apply bool_decide_eq_false. intros Heq. apply Hz, Hcount. exact Heq.
Qed.

(** X8. [_matches] answers whether the neighbourhood is exactly the
    expected one: when the indices pick as many grid values as there are
    expected states, the answer is [True] if the picked values are the
    expected states, one by one, and [False] otherwise. *)
Theorem matches_iff_expected_states (f_index : Z) (f_grid indices states picked : list Z) :
  Ruleset.np_take f_grid indices = Ok picked ->
  length picked = length states ->
  Ruleset._matches f_index f_grid indices states = Ok (bool_decide (picked = states)).
Proof. apply matches_decides. Qed.

Lemma matches_iff_expected_states_witness :
  Ruleset._matches 0 [1; 0; 1] [2; 0] [1; 1] = Ok (bool_decide ([1; 1] = [1; 1])).
Proof.
  apply (matches_iff_expected_states 0 [1; 0; 1] [2; 0] [1; 1] [1; 1]); reflexivity.
Defined.

(** What [_matches] and [_tolerates] share: the picked values, the
    differences and their count. *)
Lemma matches_true_count f_index f_grid indices states :
  Ruleset._matches f_index f_grid indices states = Ok true ->
  ∃ picked diff,
    Ruleset.np_take f_grid indices = Ok picked ∧
    Ruleset.np_xor picked states = Ok diff ∧
    Ruleset.np_count_nonzero diff = 0.
Proof.
  unfold Ruleset._matches.
  destruct (Ruleset.np_take f_grid indices) as [picked|e]; [|discriminate]. cbn [rbind].
  destruct (Ruleset.np_xor picked states) as [diff|e] eqn:Hdiff; [|discriminate].
  cbn [rbind]. intros [= Hz]. apply Z.eqb_eq in Hz. exists picked, diff. auto.
Qed.

(** X9. As [_tolerates] is written, a neighbourhood that matches its
    expectation exactly, for which [_matches] answers [True], fails under
    every positive tolerance on a non-empty grid: it has no mismatch, and
    it is the share of mismatches that is compared with the tolerance. *)
Theorem exact_match_fails_positive_tolerance
    (f_index : Z) (f_grid indices states : list Z) (tolerance : Q) :
  Ruleset._matches f_index f_grid indices states = Ok true ->
  f_grid ≠ [] ->
  (0 < tolerance)%Q ->
  Ruleset._tolerates f_index f_grid indices states (Ruleset.ArgNum tolerance) = Ok false.
Proof.
  intros (picked & diff & Hpicked & Hdiff & Hz)%matches_true_count Hne Htol.
  unfold Ruleset._tolerates. rewrite Hpicked. cbn [rbind]. rewrite Hdiff. cbn [rbind].
  rewrite Hz. destruct f_grid as [|x f_grid]; [congruence|]. f_equal.
  apply not_true_is_false. intros Hle. apply Qle_bool_iff in Hle.
  apply (Qlt_not_le _ _ Htol). unfold Qle in *. simpl in *. lia.
Qed.

Lemma exact_match_fails_positive_tolerance_witness :
  Ruleset._tolerates 0 [1; 0; 1] [2; 0] [1; 1] (Ruleset.ArgNum (1 # 1)) = Ok false.
Proof.
  apply (exact_match_fails_positive_tolerance 0 [1; 0; 1] [2; 0] [1; 1] (1 # 1));
    [reflexivity|discriminate|reflexivity].
Defined.

(** X10. [_tolerates] is monotone in the tolerance: a neighbourhood that
    passes under a tolerance passes under every smaller one. *)
Theorem tolerates_smaller_tolerance
    (f_index : Z) (f_grid indices states : list Z) (tolerance smaller : Q) :
  Ruleset._tolerates f_index f_grid indices states (Ruleset.ArgNum tolerance) = Ok true ->
  (smaller <= tolerance)%Q ->
  Ruleset._tolerates f_index f_grid indices states (Ruleset.ArgNum smaller) = Ok true.
Proof.
  unfold Ruleset._tolerates.
  destruct (Ruleset.np_take f_grid indices) as [picked|e]; [|discriminate]. cbn [rbind].
  destruct (Ruleset.np_xor picked states) as [diff|e]; [|discriminate]. cbn [rbind].
  destruct f_grid as [|x f_grid]; [discriminate|].
  intros [= Hle] Hsmaller. f_equal. apply Qle_bool_iff.
  apply Qle_bool_iff in Hle. eapply Qle_trans; eassumption.
Qed.

Lemma tolerates_smaller_tolerance_witness :
  Ruleset._tolerates 0 [1; 0; 0; 0] [0; 1] [0; 0] (Ruleset.ArgNum (1 # 8)) = Ok true.
Proof.
  apply (tolerates_smaller_tolerance 0 [1; 0; 0; 0] [0; 1] [0; 0] (1 # 4) (1 # 8));
    [reflexivity|]. unfold Qle. simpl. lia.
Defined.

(** X11. On an empty grid [_tolerates] never answers. With an index to
    pick it raises [IndexError]; with none, the division by the length of
    the grid raises [ZeroDivisionError] when the expected states are at
    most one, and the difference of the arrays raises [ValueError] when
    they are more. *)
Theorem tolerates_empty_grid (f_index : Z) (indices states : list Z) (tolerance : Ruleset.arg) :
  Ruleset._tolerates f_index [] indices states tolerance =
  Raise (match indices with
         | _ :: _ => IndexError
         | [] => if decide (length states <= 1)%nat then ZeroDivisionError else ValueError
         end).
Proof.
  unfold Ruleset._tolerates. destruct indices as [|i indices].
  - cbn [Ruleset.np_take Ruleset.rmapM rbind]. destruct states as [|y [|z states]]; reflexivity.
  - unfold Ruleset.np_take. cbn [Ruleset.rmapM].
    rewrite py_getitem_out by (simpl; lia). reflexivity.
Qed.

(** ** [Configuration.passes] under the MATCH method *)




(** ** [Ruleset.apply_to] on the planes that [Plane.__init__] builds *)

(** X13. [apply_to] cannot update a plane of fewer than two dimensions:
    for the empty shape and for a shape of one dimension [__init__] stores
    [None] or a number in [grid], which has no [flat], and the update
    raises [AttributeError] and leaves the storage as it is, whatever the
    ruleset and the arguments. *)
Theorem apply_to_rejects_planes_below_two_dimensions
    (bitarray_bits : nat -> nat -> bool)
    (passes : Configuration.t (list Ruleset.arg) (Z * Z) -> Ruleset.Neighborhood ->
              Configuration.callee (list Ruleset.arg) bool -> list Ruleset.arg ->
              result (bool * bool))
    (self : Ruleset.t) (args : list Ruleset.arg) (shape : list Z) :
  (length shape <= 1)%nat ->
  ∃ p, Plane.__init__ shape = Ok p ∧
       Ruleset.apply_to bitarray_bits passes self args (Plane.grid p)
       = (Plane.grid p, Raise AttributeError).
Proof.
  intros Hlen. destruct shape as [|n [|m rest]]; [| |simpl in Hlen; lia];
    eexists; (split; [reflexivity|reflexivity]).
Qed.

Lemma apply_to_rejects_planes_below_two_dimensions_witness :
  ∃ p, Plane.__init__ [100] = Ok p ∧
       Ruleset.apply_to (fun _ _ => false) (fun _ _ _ _ => Raise TypeError)
         (Ruleset.mk Ruleset.MATCH [] 100) [] (Plane.grid p)
       = (Plane.grid p, Raise AttributeError).
Proof.
  apply (apply_to_rejects_planes_below_two_dimensions
           (fun _ _ => false) (fun _ _ _ _ => Raise TypeError)
           (Ruleset.mk Ruleset.MATCH [] 100) [] [100]).
  simpl. lia.
Defined.

(** ** The rows [apply_to] stores *)

Section ApplyToRows.

Import Ruleset.

Variable bitarray_bits : nat -> nat -> bool.
Variable passes :
  Configuration.t (list arg) (Z * Z) -> Neighborhood ->
  Configuration.callee (list arg) bool -> list arg -> result (bool * bool).
Variable self : t.
Variable args : list arg.

Local Abbreviation row_body := (row_body bitarray_bits passes self args).
Local Abbreviation apply_to := (apply_to bitarray_bits passes self args).
Local Abbreviation config_step := (config_step passes self args).
Local Abbreviation cell_step := (cell_step passes self args).










Lemma configs_cons i config configs st g st' :
  snd (mfoldl (config_step i) (config :: configs) st g) = Ok st' ->
  ∃ st1, snd (config_step i st config g) = Ok st1 ∧
         snd (mfoldl (config_step i) configs st1 g) = Ok st'.
Proof.
  cbn [mfoldl]. unfold mbind at 1.
  rewrite (reads_only_run _ g (reads_only_config_step passes self args i st config)).
  destruct (snd (config_step i st config g)) as [st1|e]; [|discriminate].
  intros Hrest. exists st1. auto.
Qed.




(** A row body that ends, as the loop over the configurations it runs. *)
Lemma row_body_ok i g g' row :
  row_body i g = (g', Ok row) ->
  0 <= N self ∧
  ∃ st', snd (mfoldl (config_step i) (configurations self)
                (bitarray_bits i <$> py_range (N self), py_range (N self)) g) = Ok st' ∧
         row = fst st'.
Proof.
  unfold Ruleset.row_body, mbind, lift, bitarray.
  destruct (Z.ltb_spec (N self) 0); [discriminate|].
  destruct (mfoldl _ _ _ g) as [g1 [[next_row to_update]|e]]; [|discriminate].
  intros [= _ <-]. split; [lia|]. eexists. split; reflexivity.
Qed.



End ApplyToRows.



(** ** Configurations with offsets *)

Section ApplyToOffsets.

Import Ruleset.

Variable bitarray_bits : nat -> nat -> bool.
Variable passes :
  Configuration.t (list arg) (Z * Z) -> Neighborhood ->
  Configuration.callee (list arg) bool -> list arg -> result (bool * bool).
Variable self : t.
Variable args : list arg.

Local Abbreviation apply_to := (apply_to bitarray_bits passes self args).
Local Abbreviation config_step := (config_step passes self args).

(** The loop over the configurations sums the neighbours of every
    configuration in the list, also when no bit is left to update: it ends
    only when none of them has an offset. *)
Lemma configs_without_offsets i configs :
  ∀ st g st', snd (mfoldl (config_step i) configs st g) = Ok st' ->
              ∀ config, config ∈ configs -> Configuration.offsets config = [].
Proof.
  induction configs as [|first configs IH]; intros st g st' Hfold config Hin.
  - inversion Hin.
  - apply configs_cons in Hfold as (st1 & Hstep & Hrest).
    apply elem_of_cons in Hin as [->|Hin]; [|exact (IH _ _ _ Hrest _ Hin)].
    destruct st as [next_row to_update]. unfold Ruleset.config_step, mbind in Hstep.
    rewrite (reads_only_run _ g (reads_only_column_totals self first i)) in Hstep.
    destruct (snd (column_totals self first i g)) as [totals|e] eqn:Htotals;
      [|discriminate].
    exact (column_totals_only_without_offsets _ _ _ _ _ Htotals).
Qed.

(** X16. As [apply_to] is written, no update of a plane that has a row
    ends when some configuration of the ruleset has an offset: the update
    raises while it computes the first row and leaves the storage as it
    was. *)
Theorem apply_to_never_ends_with_offsets
    (flat : list rowval) (config : Configuration.t (list arg) (Z * Z)) :
  config ∈ configurations self ->
  Configuration.offsets config ≠ [] ->
  flat ≠ [] ->
  ∃ e, apply_to (Plane.GRows flat) = (Plane.GRows flat, Raise e).
Proof.
  intros Hin Hoffsets Hflat.
  destruct (apply_to_run bitarray_bits passes self args (Plane.GRows flat)) as [_ Hphases].
  destruct (snd (Ruleset.compute_rows _ _ _ _ _)) as [next_grid|e]; [|eauto].
  exfalso. destruct Hphases as (flat' & [= <-] & Hlen & Hrows & _).
  destruct (lookup_lt_is_Some_2 next_grid 0) as [row Hrow].
  { rewrite Hlen. destruct flat; [congruence|simpl; lia]. }
  apply Hrows, row_body_ok in Hrow as (_ & st' & Hfold & _).
  apply Hoffsets. exact (configs_without_offsets _ _ _ _ _ Hfold config Hin).
Qed.

End ApplyToOffsets.

Lemma apply_to_never_ends_with_offsets_witness :
  ∃ e,
    Ruleset.apply_to (fun _ _ => false) (fun _ _ _ _ => Ok (true, true))
      (Ruleset.mk Ruleset.ALWAYS_PASS
         [Configuration.mk (Configuration.Constant 1) [1] [(0, 1)]] 2)
      [] (Plane.GRows [RInt 11; RInt 10])
    = (Plane.GRows [RInt 11; RInt 10], Raise e).
Proof.
  apply (apply_to_never_ends_with_offsets
           (fun _ _ => false) (fun _ _ _ _ => Ok (true, true))
           (Ruleset.mk Ruleset.ALWAYS_PASS
              [Configuration.mk (Configuration.Constant 1) [1] [(0, 1)]] 2)
           [] [RInt 11; RInt 10]
           (Configuration.mk (Configuration.Constant 1) [1] [(0, 1)])).
  - apply list_elem_of_singleton. reflexivity.
  - discriminate.
  - discriminate.
Defined.
